(** * Scale-from-zero gate of the gateway: [gateway/handlers/scaling.go]

    A shallow embedding of [FunctionScaler.Scale] and of the handler built by
    [MakeScalingHandler], with the properties of the scale-from-zero control
    loop proved about it.

    The Go code talks to three external parties: the [ServiceQuery]
    capability (an interface), the wall clock ([time.Now], [time.Since],
    [time.Sleep]) and the HTTP side (the [ResponseWriter], the logger and the
    downstream handler).  The first two are type classes over an abstract
    environment state; every call that leaves the function is also recorded,
    in order, in a trace of events, so that statements such as "SetReplicas is
    never called" can be made about a run. *)

From Stdlib Require Import ZArith NArith Lia List.
From stdpp Require Import base gmap strings list.

(** ** Go values used by the file *)

(** A Go [error]: only its [Error()] text is observable here. *)
Inductive error : Type :=
| errorString (text : string).

Definition error_text (e : error) : string :=
  match e with errorString text => text end.

#[global] Instance error_eq_dec : EqDecision error.
Proof. solve_decision. Defined.

(** [fmt]'s [%s] verb applied to a value of interface type [error]: the text
    of the error, and the "bad verb" rendering of a nil interface. *)
Definition fmt_s (err : option error) : string :=
  match err with
  | Some e => error_text e
  | None => "%!s(<nil>)"
  end.

(** [int(x)] for [x : uint] on a 64-bit target: the same 64 bits read as a
    signed number. *)
Definition int_of_uint (x : N) : Z :=
  let u := (Z.of_N x mod 2 ^ 64)%Z in
  if (u <? 2 ^ 63)%Z then u else (u - 2 ^ 64)%Z.

(** [time.Duration] is an [int64] count of nanoseconds; [Time.Sub] saturates
    instead of wrapping. *)
Definition maxDuration : Z := (2 ^ 63 - 1)%Z.
Definition minDuration : Z := (- 2 ^ 63)%Z.

Definition saturate (d : Z) : Z :=
  if (maxDuration <? d)%Z then maxDuration
  else if (d <? minDuration)%Z then minDuration
  else d.

Definition StatusNotFound : Z := 404%Z.
Definition StatusInternalServerError : Z := 500%Z.

(** ** Package [scaling] *)

Module scaling.

(** Modelled from the spec: the declaration of [scaling.ServiceQueryResponse]
    is not part of the sources at hand.  Section 3 and section 6 of the
    spec give a replica observation two unsigned counters, which are the two
    fields [Scale] reads. *)
Record ServiceQueryResponse : Type := mkResponse {
  AvailableReplicas : N;
  MinReplicas : N
}.

#[global] Instance ServiceQueryResponse_eq_dec : EqDecision ServiceQueryResponse.
Proof. solve_decision. Defined.

(** The zero value of the struct, what [var r ServiceQueryResponse] holds. *)
Definition zeroResponse : ServiceQueryResponse :=
  {| AvailableReplicas := 0; MinReplicas := 0 |}.

(** Modelled from the spec: the entry type of the cache
    ([scaling.FunctionMeta]) is not part of the sources at hand.  Section 3:
    an observation together with an expiry instant derived from the TTL. *)
Record CacheEntry : Type := mkEntry {
  Observation : ServiceQueryResponse;
  ExpiresAt : Z
}.

(** [scaling.FunctionCache]: the two fields that [NewFunctionScaler]
    initialises. *)
Record FunctionCache : Type := mkCache {
  Cache : gmap string CacheEntry;
  Expiry : Z
}.

(** Modelled from the spec: [FunctionCache.Set] is not part of the sources
    at hand.  Section 4.1: it unconditionally overwrites the entry for the
    name and resets its expiry to now + TTL. *)
Definition FunctionCache_Set (functionName : string)
    (observation : ServiceQueryResponse) (now : Z) (fc : FunctionCache)
    : FunctionCache :=
  {| Cache := <[functionName :=
                  {| Observation := observation;
                     ExpiresAt := (now + Expiry fc)%Z |}]> (Cache fc);
     Expiry := Expiry fc |}.

(** Modelled from the spec: [FunctionCache.Get], section 4.1: an entry is
    reported only while its age does not exceed the TTL. *)
Definition FunctionCache_Get (functionName : string) (now : Z)
    (fc : FunctionCache) : ServiceQueryResponse * bool :=
  match Cache fc !! functionName with
  | Some entry =>
      if (now <=? ExpiresAt entry)%Z then (Observation entry, true)
      else (zeroResponse, false)
  | None => (zeroResponse, false)
  end.

(** The [scaling.ServiceQuery] interface, over the state [S] of whatever
    implements it.  As in Go, [GetReplicas] returns a response value and an
    error side by side. *)
Class ServiceQuery (S : Type) : Type := {
  GetReplicas : string -> S -> (ServiceQueryResponse * option error) * S;
  SetReplicas : string -> N -> S -> option error * S
}.

End scaling.

Import scaling.

(** The clock of package [time], read and advanced through the same
    environment state. *)
Class Clock (S : Type) : Type := {
  Now : S -> Z;
  Sleep : Z -> S -> S
}.

(** ** Package [handlers] *)

Record ScalingConfig : Type := mkConfig {
  MaxPollCount : N;
  FunctionPollInterval : Z;
  CacheExpiry : Z
  (* ServiceQuery: the [ServiceQuery] instance of the environment *)
}.

(** [FunctionScaler]: the [Cache] field is a pointer; the cell it points to
    lives in the [World] below. *)
Record FunctionScaler : Type := mkScaler {
  Config : ScalingConfig
}.

Record FunctionScaleResult : Type := mkResult {
  Available : bool;
  Error : option error;
  Found : bool;
  Duration : Z
}.

Record Request : Type := mkRequest {
  URL : string
}.

(** What [log.Printf] is given; the [%f] renderings of durations are kept as
    the numbers they print. *)
Inductive LogLine : Type :=
| LogRequested (functionName : string) (minReplicas : N)
| LogSuccessful (functionName : string) (availableReplicas : N) (totalTime : Z)
| LogScaling (errStr : string)
| LogTimedOut (functionName : string) (duration : Z).

(** The calls that leave [Scale] and the handler, in program order. *)
Inductive Event : Type :=
| EvGetReplicas (functionName : string) (r : ServiceQueryResponse) (err : option error)
| EvSetReplicas (functionName : string) (replicas : N) (err : option error)
| EvCacheSet (functionName : string) (r : ServiceQueryResponse)
| EvSleep (d : Z)
| EvLog (l : LogLine)
| EvWriteHeader (code : Z)
| EvWrite (body : string)
| EvNext (r : Request).

(** How a handler invocation ends: it returns, or it panics on a nil
    dereference. *)
Inductive Outcome : Type :=
| Returned
| Panicked.

(** ** The effect monad: state of the world and a trace of events *)

Record World (S : Type) : Type := mkWorld {
  env : S;
  cell : FunctionCache
}.
Arguments mkWorld {S} _ _.
Arguments env {S} _.
Arguments cell {S} _.

Definition M (S A : Type) : Type := World S -> A * World S * list Event.

Definition ret {S A : Type} (a : A) : M S A :=
  fun w => (a, w, []).

Definition bind {S A B : Type} (m : M S A) (k : A -> M S B) : M S B :=
  fun w =>
    let '(a, w1, t1) := m w in
    let '(b, w2, t2) := k a w1 in
    (b, w2, t1 ++ t2).

(** The three components of a run. *)
Definition result_of {S A : Type} (run : A * World S * list Event) : A :=
  fst (fst run).

Definition world_of {S A : Type} (run : A * World S * list Event) : World S :=
  snd (fst run).

Definition trace_of {S A : Type} (run : A * World S * list Event) : list Event :=
  snd run.

Definition emit {S : Type} (e : Event) : M S unit :=
  fun w => (tt, w, [e]).

Declare Scope go_scope.
Delimit Scope go_scope with go.
Notation "x <~ m ;; k" := (bind m (fun x => k))
  (at level 100, m at next level, k at level 200, right associativity) : go_scope.
Notation "m ;;; k" := (bind m (fun _ => k))
  (at level 100, k at level 200, right associativity) : go_scope.
Local Open Scope go_scope.

Section Handlers.

Context {S : Type} `{!ServiceQuery S} `{!Clock S}.

(** *** The primitive calls *)

Definition time_Now : M S Z :=
  fun w => (Now (env w), w, []).

Definition time_Since (start : Z) : M S Z :=
  fun w => (saturate (Now (env w) - start), w, []).

Definition time_Sleep (d : Z) : M S unit :=
  fun w => (tt, mkWorld (Sleep d (env w)) (cell w), [EvSleep d]).

Definition call_GetReplicas (functionName : string)
    : M S (ServiceQueryResponse * option error) :=
  fun w =>
    let '(r, err, s) := GetReplicas functionName (env w) in
    ((r, err), mkWorld s (cell w), [EvGetReplicas functionName r err]).

Definition call_SetReplicas (functionName : string) (replicas : N)
    : M S (option error) :=
  fun w =>
    let '(err, s) := SetReplicas functionName replicas (env w) in
    (err, mkWorld s (cell w), [EvSetReplicas functionName replicas err]).

(** [f.Cache.Set(functionName, queryResponse)] *)
Definition cache_Set (functionName : string) (r : ServiceQueryResponse)
    : M S unit :=
  fun w =>
    (tt,
     mkWorld (env w) (FunctionCache_Set functionName r (Now (env w)) (cell w)),
     [EvCacheSet functionName r]).

Definition log_Printf (l : LogLine) : M S unit := emit (EvLog l).

(** *** [NewFunctionScaler] *)

(** The scaler, and the initial content of the cache cell it points to. *)
Definition NewFunctionScaler (config : ScalingConfig)
    : FunctionScaler * FunctionCache :=
  ({| Config := config |},
   {| Cache := ∅; Expiry := CacheExpiry config |}).

(** *** [Scale] *)

(** The polling loop, [for i := 0; i < int(MaxPollCount); i++], by the
    number of iterations still to run.  [Some res] is a [return res] from
    inside the loop, [None] is the loop running to its end. *)
Fixpoint poll (f : FunctionScaler) (functionName : string) (start : Z)
    (remaining : nat) : M S (option FunctionScaleResult) :=
  match remaining with
  | O => ret None
  | Datatypes.S remaining' =>
      qr <~ call_GetReplicas functionName ;;
      let '(queryResponse, err) := qr in
      cache_Set functionName queryResponse ;;;
      totalTime <~ time_Since start ;;
      match err with
      | Some _ =>
          ret (Some {| Error := err;
                       Available := false;
                       Found := true;
                       Duration := totalTime |})
      | None =>
          if (0 <? AvailableReplicas queryResponse)%N then
            log_Printf (LogSuccessful functionName
                          (AvailableReplicas queryResponse) totalTime) ;;;
            ret (Some {| Error := None;
                         Available := true;
                         Found := true;
                         Duration := totalTime |})
          else
            time_Sleep (FunctionPollInterval (Config f)) ;;;
            poll f functionName start remaining'
      end
  end.

Definition pollCount (f : FunctionScaler) : nat :=
  Z.to_nat (int_of_uint (MaxPollCount (Config f))).

(** The [return] at the end of the function body. *)
Definition scale_fallthrough (start : Z) : M S FunctionScaleResult :=
  d <~ time_Since start ;;
  ret {| Error := None; Available := true; Found := true; Duration := d |}.

Definition Scale (f : FunctionScaler) (functionName : string)
    : M S FunctionScaleResult :=
  start <~ time_Now ;;
  qr <~ call_GetReplicas functionName ;;
  let '(queryResponse, err) := qr in
  match err with
  | Some _ =>
      d <~ time_Since start ;;
      ret {| Error := err; Available := false; Found := false; Duration := d |}
  | None =>
      cache_Set functionName queryResponse ;;;
      if (AvailableReplicas queryResponse =? 0)%N then
        let minReplicas :=
          if (0 <? MinReplicas queryResponse)%N
          then MinReplicas queryResponse else 1%N in
        log_Printf (LogRequested functionName minReplicas) ;;;
        setScaleErr <~ call_SetReplicas functionName minReplicas ;;
        match setScaleErr with
        | Some _ =>
            (* the message is built from [err], the error of the first
               query, as the source has it *)
            d <~ time_Since start ;;
            ret {| Error := Some (errorString
                                    ("unable to scale function [" +:+ functionName
                                     +:+ "], err: " +:+ fmt_s err));
                   Available := false;
                   Found := true;
                   Duration := d |}
        | None =>
            early <~ poll f functionName start (pollCount f) ;;
            match early with
            | Some res => ret res
            | None => scale_fallthrough start
            end
        end
      else scale_fallthrough start
  end.

(** *** [MakeScalingHandler] *)

(** [getServiceName] is defined elsewhere in the package and taken as
    given; [next] is the downstream handler, acting on the environment. *)
Variable getServiceName : string -> string.

Definition serve_next (next : Request -> S -> S) (r : Request) : M S unit :=
  fun w => (tt, mkWorld (next r (env w)) (cell w), [EvNext r]).

(** The closure returned by [MakeScalingHandler], given the scaler made
    when the handler was created. *)
Definition scalingHandler (next : Request -> S -> S) (scaler : FunctionScaler)
    (r : Request) : M S Outcome :=
  let functionName := getServiceName (URL r) in
  res <~ Scale scaler functionName ;;
  if negb (Found res) then
    match Error res with
    | None => ret Panicked (* res.Error.Error() on a nil interface *)
    | Some e =>
        let errStr := "error finding function " +:+ functionName +:+ ": " +:+ error_text e in
        log_Printf (LogScaling errStr) ;;;
        emit (EvWriteHeader StatusNotFound) ;;;
        emit (EvWrite errStr) ;;;
        ret Returned
    end
  else
    match Error res with
    | Some e =>
        let errStr := "error finding function " +:+ functionName +:+ ": " +:+ error_text e in
        log_Printf (LogScaling errStr) ;;;
        emit (EvWriteHeader StatusInternalServerError) ;;;
        emit (EvWrite errStr) ;;;
        ret Returned
    | None =>
        if Available res then
          serve_next next r ;;;
          ret Returned
        else
          log_Printf (LogTimedOut functionName (Duration res)) ;;;
          ret Returned
    end.

(** [MakeScalingHandler]: the handler, and the initial content of the
    cache cell its scaler points to. *)
Definition MakeScalingHandler (next : Request -> S -> S) (config : ScalingConfig)
    : (Request -> M S Outcome) * FunctionCache :=
  let '(scaler, fc) := NewFunctionScaler config in
  (scalingHandler next scaler, fc).

End Handlers.

Arguments scalingHandler {S _ _} getServiceName next scaler r.
Arguments MakeScalingHandler {S _ _} getServiceName next config.

(** ** A scripted environment, to run the code on concrete inputs *)

Module Scripted.

(** The answers the control plane will give, in order, and a clock. *)
Record Script : Type := mkScript {
  gets : list (ServiceQueryResponse * option error);
  sets : list (option error);
  clock : Z
}.

#[global] Instance Script_ServiceQuery : ServiceQuery Script := {|
  GetReplicas _ s :=
    match gets s with
    | [] => (zeroResponse, None, s)
    | answer :: rest => (answer, mkScript rest (sets s) (clock s))
    end;
  SetReplicas _ _ s :=
    match sets s with
    | [] => (None, s)
    | answer :: rest => (answer, mkScript (gets s) rest (clock s))
    end
|}.

#[global] Instance Script_Clock : Clock Script := {|
  Now s := clock s;
  Sleep d s := mkScript (gets s) (sets s) (clock s + d)%Z
|}.

Definition config (maxPoll : N) : ScalingConfig :=
  {| MaxPollCount := maxPoll;
     FunctionPollInterval := 10000000%Z;
     CacheExpiry := 5000000000%Z |}.

Definition scaler (maxPoll : N) : FunctionScaler :=
  {| Config := config maxPoll |}.

Definition world (g : list (ServiceQueryResponse * option error))
    (s : list (option error)) : World Script :=
  mkWorld (mkScript g s 0) {| Cache := ∅; Expiry := 5000000000%Z |}.

Definition zero : ServiceQueryResponse * option error :=
  ({| AvailableReplicas := 0; MinReplicas := 0 |}, None).

Definition up (n : N) : ServiceQueryResponse * option error :=
  ({| AvailableReplicas := n; MinReplicas := 0 |}, None).

Definition broken (n : N) (text : string) : ServiceQueryResponse * option error :=
  ({| AvailableReplicas := n; MinReplicas := 0 |}, Some (errorString text)).

(** Inputs for the runs below. *)
Definition world_up : World Script := world [up 2] [].

Definition world_timeout : World Script := world [zero; zero; zero] [None].

Definition world_set_fails : World Script :=
  world [zero] [Some (errorString "boom")].

Definition world_poll_fails : World Script :=
  world [zero; zero; broken 3 "down"] [None].

Definition world_unknown : World Script := world [broken 0 "nope"] [].

Definition world_min : World Script :=
  world [({| AvailableReplicas := 0; MinReplicas := 4 |}, None); up 4] [None].

Definition world_ready : World Script := world [zero; zero; up 2] [None].

Definition world_scaled : World Script := world [zero] [None].

End Scripted.

(** ** What a run of the polling loop looks like *)

(** One iteration that found no replica and went to sleep. *)
Definition zero_round (functionName : string) (interval : Z)
    (r : ServiceQueryResponse) : list Event :=
  [EvGetReplicas functionName r None; EvCacheSet functionName r; EvSleep interval].

(** [poll_run name interval n early tr]: a loop of at most [n] iterations
    may end with [early] after emitting [tr]. *)
Inductive poll_run (functionName : string) (interval : Z)
    : nat -> option FunctionScaleResult -> list Event -> Prop :=
| poll_exhausted :
    poll_run functionName interval 0 None []
| poll_failed n r e d :
    poll_run functionName interval (Datatypes.S n)
      (Some {| Error := Some e; Available := false; Found := true; Duration := d |})
      [EvGetReplicas functionName r (Some e); EvCacheSet functionName r]
| poll_ready n r d :
    (0 < AvailableReplicas r)%N ->
    poll_run functionName interval (Datatypes.S n)
      (Some {| Error := None; Available := true; Found := true; Duration := d |})
      [EvGetReplicas functionName r None; EvCacheSet functionName r;
       EvLog (LogSuccessful functionName (AvailableReplicas r) d)]
| poll_again n r early tr :
    AvailableReplicas r = 0%N ->
    poll_run functionName interval n early tr ->
    poll_run functionName interval (Datatypes.S n) early
      (zero_round functionName interval r ++ tr).

(** Events that [Scale] can emit: everything but the handler's own. *)
Definition scaler_event (e : Event) : Prop :=
  match e with
  | EvGetReplicas _ _ _ | EvSetReplicas _ _ _ | EvCacheSet _ _ | EvSleep _ => True
  | EvLog (LogRequested _ _) | EvLog (LogSuccessful _ _ _) => True
  | _ => False
  end.

Definition is_get (e : Event) : bool :=
  match e with EvGetReplicas _ _ _ => true | _ => false end.

Definition is_set (e : Event) : bool :=
  match e with EvSetReplicas _ _ _ => true | _ => false end.

(** The response of the last [GetReplicas] call of a trace. *)
Fixpoint last_get (tr : list Event) : option ServiceQueryResponse :=
  match tr with
  | [] => None
  | EvGetReplicas _ r _ :: rest =>
      match last_get rest with
      | Some r' => Some r'
      | None => Some r
      end
  | _ :: rest => last_get rest
  end.

(** The loop only queries, writes the cache, sleeps and logs success. *)
Definition poll_event (e : Event) : Prop :=
  match e with
  | EvGetReplicas _ _ _ | EvCacheSet _ _ | EvSleep _
  | EvLog (LogSuccessful _ _ _) => True
  | _ => False
  end.

(** ** What a run of [Scale] looks like *)

(** The replica count [Scale] asks for, from the first observation. *)
Definition requestedReplicas (r : ServiceQueryResponse) : N :=
  if (0 <? MinReplicas r)%N then MinReplicas r else 1%N.

(** The events up to and including the [SetReplicas] call. *)
Definition scale_up_prefix (functionName : string) (r0 : ServiceQueryResponse)
    (setScaleErr : option error) : list Event :=
  [EvGetReplicas functionName r0 None;
   EvCacheSet functionName r0;
   EvLog (LogRequested functionName (requestedReplicas r0));
   EvSetReplicas functionName (requestedReplicas r0) setScaleErr].

(** The message of the error returned when [SetReplicas] fails. *)
Definition unableToScale (functionName : string) : error :=
  errorString ("unable to scale function [" +:+ functionName
               +:+ "], err: " +:+ "%!s(<nil>)").

(** [scale_run name interval n first res tr]: with [first] the outcome of the
    first [GetReplicas] call and a polling budget of [n], [Scale] may return
    [res] after emitting [tr]. *)
Inductive scale_run (functionName : string) (interval : Z) (n : nat)
    : ServiceQueryResponse * option error -> FunctionScaleResult -> list Event -> Prop :=
| scale_not_found r0 e d :
    scale_run functionName interval n (r0, Some e)
      {| Error := Some e; Available := false; Found := false; Duration := d |}
      [EvGetReplicas functionName r0 (Some e)]
| scale_already_up r0 d :
    (0 < AvailableReplicas r0)%N ->
    scale_run functionName interval n (r0, None)
      {| Error := None; Available := true; Found := true; Duration := d |}
      [EvGetReplicas functionName r0 None; EvCacheSet functionName r0]
| scale_set_failed r0 e d :
    AvailableReplicas r0 = 0%N ->
    scale_run functionName interval n (r0, None)
      {| Error := Some (unableToScale functionName);
         Available := false; Found := true; Duration := d |}
      (scale_up_prefix functionName r0 (Some e))
| scale_polled r0 res tr :
    AvailableReplicas r0 = 0%N ->
    poll_run functionName interval n (Some res) tr ->
    scale_run functionName interval n (r0, None) res
      (scale_up_prefix functionName r0 None ++ tr)
| scale_exhausted r0 tr d :
    AvailableReplicas r0 = 0%N ->
    poll_run functionName interval n None tr ->
    scale_run functionName interval n (r0, None)
      {| Error := None; Available := true; Found := true; Duration := d |}
      (scale_up_prefix functionName r0 None ++ tr).

(** The reading of a trace under which a failed polling query is followed
    by a cache write of the zero value. *)
Definition failed_poll_stores_zero (functionName : string) (tr : list Event) : Prop :=
  forall t1 fn r e t2,
    tr = t1 ++ EvGetReplicas fn r (Some e) :: t2 ->
    t1 <> [] ->
    exists t3, t2 = EvCacheSet functionName zeroResponse :: t3.

(** ** Counting and classifying events *)

Definition is_sleep (e : Event) : bool :=
  match e with EvSleep _ => true | _ => false end.

Definition is_cache_set (e : Event) : bool :=
  match e with EvCacheSet _ _ => true | _ => false end.

Definition is_write_header (e : Event) : bool :=
  match e with EvWriteHeader _ => true | _ => false end.

Definition is_write (e : Event) : bool :=
  match e with EvWrite _ => true | _ => false end.

Definition is_next (e : Event) : bool :=
  match e with EvNext _ => true | _ => false end.

(** A call to the control plane that returned an error. *)
Definition failed_call (e : Event) : bool :=
  match e with
  | EvGetReplicas _ _ (Some _) | EvSetReplicas _ _ (Some _) => true
  | _ => false
  end.

Definition no_failed_call (tr : list Event) : bool :=
  forallb (fun e => negb (failed_call e)) tr.

(** How many events of a trace satisfy [p]. *)
Fixpoint count_if (p : Event -> bool) (tr : list Event) : nat :=
  match tr with
  | [] => 0
  | e :: rest => (if p e then 1 else 0) + count_if p rest
  end.

(** The function an event is about, for the events that name one. *)
Definition event_function (e : Event) : option string :=
  match e with
  | EvGetReplicas fn _ _ | EvSetReplicas fn _ _ | EvCacheSet fn _ => Some fn
  | EvLog (LogRequested fn _) | EvLog (LogSuccessful fn _ _)
  | EvLog (LogTimedOut fn _) => Some fn
  | _ => None
  end.

(** An event that names the function [functionName], or a sleep. *)
Definition about (functionName : string) (e : Event) : Prop :=
  event_function e = Some functionName \/ is_sleep e = true.

(** * Proofs *)

(** ** The run relations describe the code *)

Section PollProperties.

Context {S : Type} `{!ServiceQuery S} `{!Clock S}.
Implicit Types (f : FunctionScaler) (w : World S) (tr : list Event).

Lemma poll_sound f functionName start n : forall w early w' tr,
  poll f functionName start n w = (early, w', tr) ->
  poll_run functionName (FunctionPollInterval (Config f)) n early tr.
Proof.
  induction n as [|n IH]; intros w early w' tr Hrun.
  - cbn in Hrun. inversion Hrun; subst. constructor.
  - cbn [poll] in Hrun. unfold bind, call_GetReplicas in Hrun.
    destruct (GetReplicas functionName (env w)) as [[r err] s] eqn:Hget.
    cbn in Hrun.
    destruct err as [e|].
    + inversion Hrun; subst. apply poll_failed.
    + destruct (0 <? AvailableReplicas r)%N eqn:Hav; cbn in Hrun.
      * inversion Hrun; subst. apply poll_ready. by apply N.ltb_lt.
      * destruct (poll f functionName start n _) as [[early' w2] t2] eqn:Hrest.
        inversion Hrun; subst.
        apply (poll_again functionName _ n r early t2).
        -- apply N.ltb_ge in Hav. lia.
        -- eapply IH. exact Hrest.
Qed.

End PollProperties.

Section ScaleProperties.

Context {S : Type} `{!ServiceQuery S} `{!Clock S}.
Implicit Types (f : FunctionScaler) (w : World S) (tr : list Event).

Lemma Scale_sound f functionName w res w' tr :
  Scale f functionName w = (res, w', tr) ->
  scale_run functionName (FunctionPollInterval (Config f)) (pollCount f)
    (fst (GetReplicas functionName (env w))) res tr.
Proof.
  unfold Scale, bind, call_GetReplicas, time_Now. cbn.
  destruct (GetReplicas functionName (env w)) as [[r0 err0] s0] eqn:Hget.
  cbn. destruct err0 as [e|]; cbn.
  - intros Hrun. inversion Hrun; subst. constructor.
  - destruct (AvailableReplicas r0 =? 0)%N eqn:Hzero; cbn.
    + apply N.eqb_eq in Hzero.
      unfold call_SetReplicas. cbn.
      destruct (SetReplicas functionName _ s0) as [setScaleErr s1] eqn:Hset.
      destruct setScaleErr as [e|]; cbn.
      * intros Hrun. inversion Hrun; subst.
        by apply (scale_set_failed functionName _ _ r0 e).
      * destruct (poll f functionName _ (pollCount f) _) as [[early w2] t2] eqn:Hpoll.
        apply poll_sound in Hpoll.
        destruct early as [res'|]; cbn; intros Hrun; inversion Hrun; subst;
          rewrite app_nil_r.
        -- by apply (scale_polled functionName _ _ r0 res t2).
        -- by apply (scale_exhausted functionName _ _ r0 t2).
    + apply N.eqb_neq in Hzero.
      intros Hrun. inversion Hrun; subst.
      apply scale_already_up. lia.
Qed.

End ScaleProperties.

(** ** Properties of traces *)

Lemma cons_eq_app_cons {A : Type} (a x : A) (l t1 t2 : list A) :
  a :: l = t1 ++ x :: t2 ->
  (t1 = [] /\ a = x /\ l = t2) \/
  (exists t1', t1 = a :: t1' /\ l = t1' ++ x :: t2).
Proof.
  destruct t1 as [|b t1']; cbn; intros Heq; inversion Heq; subst.
  - by left.
  - right. by exists t1'.
Qed.

(** Peel the known events off an equation [e1 :: ... = t1 ++ x :: t2]. *)
Ltac peel_trace :=
  repeat match goal with
  | H : [] = _ ++ _ :: _ |- _ => by destruct (app_cons_not_nil _ _ _ H)
  | H : _ :: _ = _ ++ _ :: _ |- _ =>
      apply cons_eq_app_cons in H;
      let Hx := fresh "Hx" in
      let Ht := fresh "Ht" in
      destruct H as [(-> & Hx & Ht) | (? & -> & H)];
      [ first [ discriminate Hx | inversion Hx; subst; clear Hx ] | ]
  end.

Section TraceProperties.

Variables (functionName : string) (interval : Z).

(** In the polling loop every query is followed at once by the cache write
    of the value it returned; a failed query ends the loop there, with the
    failure as the result. *)
Lemma poll_run_get n early tr :
  poll_run functionName interval n early tr ->
  forall t1 fn r err t2,
    tr = t1 ++ EvGetReplicas fn r err :: t2 ->
    fn = functionName /\
    exists t3, t2 = EvCacheSet functionName r :: t3 /\
      forall e, err = Some e ->
        t3 = [] /\
        exists d, early = Some {| Error := Some e; Available := false;
                                  Found := true; Duration := d |}.
Proof.
  induction 1 as [|n r e d|n r d Hup|n r early tr Hzero Hrun IH];
    intros t1 fn r' err t2 Heq.
  - peel_trace.
  - peel_trace. split; [done|]. eexists; split; [done|].
    intros e' [= <-]. split; [done|]. by exists d.
  - peel_trace. split; [done|]. eexists; split; [done|]. intros e' [=].
  - unfold zero_round in Heq. cbn in Heq.
    apply cons_eq_app_cons in Heq.
    destruct Heq as [(-> & Hx & Ht) | (t1' & -> & Heq)].
    + inversion Hx; subst. split; [done|]. eexists; split; [done|]. intros e' [=].
    + apply cons_eq_app_cons in Heq.
      destruct Heq as [(-> & Hx & Ht) | (t1'' & -> & Heq)]; [discriminate Hx|].
      apply cons_eq_app_cons in Heq.
      destruct Heq as [(-> & Hx & Ht) | (t1''' & -> & Heq)]; [discriminate Hx|].
      by apply (IH _ _ _ _ _ Heq).
Qed.

Lemma poll_run_events n early tr :
  poll_run functionName interval n early tr -> Forall poll_event tr.
Proof.
  induction 1; unfold zero_round; repeat constructor; done.
Qed.

(** A result returned from inside the loop. *)
Lemma poll_run_result n res tr :
  poll_run functionName interval n (Some res) tr ->
  Found res = true /\
  ((Error res = None /\ Available res = true) \/
   (Error res <> None /\ Available res = false)).
Proof.
  remember (Some res) as early eqn:Hearly.
  induction 1 as [|n r e d|n r d Hup|n r early tr Hzero Hrun IH].
  - discriminate.
  - injection Hearly as <-. split; [done|]. by right.
  - injection Hearly as <-. split; [done|]. by left.
  - by apply IH.
Qed.

(** A loop that ran to its end made exactly [n] queries, each of which
    succeeded and saw no replica. *)
Lemma poll_run_exhausted n tr :
  poll_run functionName interval n None tr ->
  exists rs : list ServiceQueryResponse,
    length rs = n /\
    Forall (fun r => AvailableReplicas r = 0%N) rs /\
    tr = flat_map (zero_round functionName interval) rs.
Proof.
  remember None as early eqn:Hearly.
  induction 1 as [|n r e d|n r d Hup|n r early tr Hzero Hrun IH];
    try discriminate.
  - by exists [].
  - destruct (IH Hearly) as (rs & Hlen & Hall & ->).
    exists (r :: rs). cbn. repeat split; [by rewrite Hlen | by constructor].
Qed.

(** A loop whose trace is made of rounds that found no replica ran to its
    end: it returned nothing, and used its whole budget. *)
Lemma poll_run_rounds n early rs :
  poll_run functionName interval n early
    (flat_map (zero_round functionName interval) rs) ->
  early = None /\ length rs = n /\
  Forall (fun r => AvailableReplicas r = 0%N) rs.
Proof.
  intros Hrun.
  remember (flat_map (zero_round functionName interval) rs) as tr eqn:Htr.
  revert rs Htr.
  induction Hrun as [|n r e d|n r d Hup|n r early tr Hzero Hrun IH];
    intros rs Htr.
  - destruct rs as [|r' rs]; [done|discriminate Htr].
  - destruct rs as [|r' rs]; cbn in Htr; discriminate Htr.
  - destruct rs as [|r' rs]; cbn in Htr; [discriminate Htr|].
    destruct rs as [|r'' rs]; cbn in Htr; discriminate Htr.
  - destruct rs as [|r' rs]; cbn in Htr; [discriminate Htr|].
    simplify_eq/=.
    destruct (IH rs eq_refl) as (-> & <- & Hall).
    split; [done|]. split; [done|]. by constructor.
Qed.

(** The three shapes of a result of [Scale]. *)
Lemma scale_run_result n first res tr :
  scale_run functionName interval n first res tr ->
  (Found res = false /\ Available res = false /\
     exists e, snd first = Some e /\ Error res = Some e) \/
  (Found res = true /\ Available res = false /\ Error res <> None /\
     snd first = None) \/
  (Found res = true /\ Available res = true /\ Error res = None /\
     snd first = None).
Proof.
  destruct 1 as [r0 e d|r0 d Hup|r0 e d Hzero|r0 res tr Hzero Hpoll|r0 tr d Hzero Hpoll];
    cbn.
  - left. repeat split. by exists e.
  - right; right. done.
  - right; left. done.
  - apply poll_run_result in Hpoll as (HF & [(HE & HA)|(HE & HA)]).
    + right; right. done.
    + right; left. done.
  - right; right. done.
Qed.

Lemma poll_event_scaler_event e : poll_event e -> scaler_event e.
Proof. destruct e as [| | | |[]| | |]; cbn; done. Qed.

Lemma scale_run_events n first res tr :
  scale_run functionName interval n first res tr -> Forall scaler_event tr.
Proof.
  destruct 1 as [r0 e d|r0 d Hup|r0 e d Hzero|r0 res tr Hzero Hpoll|r0 tr d Hzero Hpoll];
    unfold scale_up_prefix; cbn; repeat constructor;
    try (eapply Forall_impl; [eapply poll_run_events; eassumption|];
         apply poll_event_scaler_event).
Qed.

(** Where a [SetReplicas] call can sit in a trace of [Scale], and what it
    asks for. *)
Lemma scale_run_set n first res tr fn k err :
  scale_run functionName interval n first res tr ->
  In (EvSetReplicas fn k err) tr ->
  snd first = None /\ AvailableReplicas (fst first) = 0%N /\
  fn = functionName /\ k = requestedReplicas (fst first).
Proof.
  assert (Hpoll_no_set : forall n early t,
    poll_run functionName interval n early t ->
    In (EvSetReplicas fn k err) t -> False).
  { intros n' early t Hp Hin. apply poll_run_events in Hp.
    rewrite Forall_forall in Hp. apply list_elem_of_In in Hin.
    by apply Hp in Hin. }
  destruct 1 as [r0 e d|r0 d Hup|r0 e d Hzero|r0 res tr Hzero Hpoll|r0 tr d Hzero Hpoll];
    unfold scale_up_prefix; cbn; intros Hin.
  - destruct Hin as [[=]|[]].
  - destruct Hin as [[=]|[[=]|[]]].
  - destruct Hin as [[=]|[[=]|[[=]|[[= <- <- <-]|[]]]]]. done.
  - destruct Hin as [[=]|[[=]|[[=]|[[= <- <- <-]|Hin]]]]; [done|].
    by destruct (Hpoll_no_set _ _ _ Hpoll Hin).
  - destruct Hin as [[=]|[[=]|[[=]|[[= <- <- <-]|Hin]]]]; [done|].
    by destruct (Hpoll_no_set _ _ _ Hpoll Hin).
Qed.

(** Every query of a run of [Scale] but a failed first one is followed at
    once by the cache write of the value it returned; a failed query is
    the last one, and its failure is the result. *)
Lemma scale_run_get n first res tr :
  scale_run functionName interval n first res tr ->
  forall t1 fn r err t2,
    tr = t1 ++ EvGetReplicas fn r err :: t2 ->
    fn = functionName /\
    ((t1 = [] /\ first = (r, err) /\ err <> None /\ t2 = []) \/
     (exists t3, t2 = EvCacheSet functionName r :: t3 /\
        (t1 = [] -> first = (r, err) /\ err = None) /\
        (t1 <> [] -> forall e, err = Some e ->
           t3 = [] /\ Found res = true /\ Available res = false /\
           Error res = Some e))).
Proof.
  assert (Hpoll_get : forall early t, poll_run functionName interval n early t ->
    forall res', match early with Some r => res' = r | None => True end ->
    forall t1 fn r err t2, t = t1 ++ EvGetReplicas fn r err :: t2 ->
    fn = functionName /\
    exists t3, t2 = EvCacheSet functionName r :: t3 /\
      forall e, err = Some e ->
        t3 = [] /\ Found res' = true /\ Available res' = false /\
        Error res' = Some e).
  { intros early t Hp res' Hres t1 fn r err t2 Heq.
    destruct (poll_run_get _ _ _ Hp _ _ _ _ _ Heq) as (-> & t3 & -> & Hfail).
    split; [done|]. exists t3. split; [done|].
    intros e He. destruct (Hfail e He) as (-> & d & ->). by subst res'. }
  destruct 1 as [r0 e d|r0 d Hup|r0 e d Hzero|r0 res tr Hzero Hpoll|r0 tr d Hzero Hpoll];
    intros t1 fn r err t2 Heq; unfold scale_up_prefix in Heq; cbn in Heq.
  - peel_trace. split; [done|]. left. done.
  - peel_trace. split; [done|]. right. eexists. split; [done|].
    split; [done|]. intros Hne. done.
  - peel_trace. split; [done|]. right. eexists. split; [done|].
    split; [done|]. intros Hne. done.
  - do 4 (apply cons_eq_app_cons in Heq;
          destruct Heq as [(-> & Hx & Ht) | (? & -> & Heq)];
          [ first [ discriminate Hx
                  | inversion Hx; subst; split; [done|]; right; eexists;
                    split; [done|]; split; [done|]; intros Hne; done ] | ]).
    destruct (Hpoll_get _ _ Hpoll res eq_refl _ _ _ _ _ Heq) as (-> & t3 & -> & Hfail).
    split; [done|]. right. exists t3. split; [done|].
    split; [intros [=]|]. intros _. exact Hfail.
  - do 4 (apply cons_eq_app_cons in Heq;
          destruct Heq as [(-> & Hx & Ht) | (? & -> & Heq)];
          [ first [ discriminate Hx
                  | inversion Hx; subst; split; [done|]; right; eexists;
                    split; [done|]; split; [done|]; intros Hne; done ] | ]).
    destruct (poll_run_get _ _ _ Hpoll _ _ _ _ _ Heq) as (-> & t3 & -> & Hfail).
    split; [done|]. right. exists t3. split; [done|].
    split; [intros [=]|]. intros _ e He.
    by destruct (Hfail e He) as (_ & d' & [=]).
Qed.

End TraceProperties.

(** ** The cache after a run *)

Section CacheProperties.

Context {S : Type} `{!ServiceQuery S} `{!Clock S}.
Implicit Types (f : FunctionScaler) (w : World S).

(** After the loop, the entry of the function holds the value returned by
    the last query of the loop, whatever its error; no other key moved. *)
Lemma poll_cache f functionName start n : forall w,
  let run := poll f functionName start n w in
  Expiry (cell (world_of run)) = Expiry (cell w) /\
  (forall k, k <> functionName ->
     Cache (cell (world_of run)) !! k = Cache (cell w) !! k) /\
  Observation <$> (Cache (cell (world_of run)) !! functionName) =
    match last_get (trace_of run) with
    | Some r => Some r
    | None => Observation <$> (Cache (cell w) !! functionName)
    end.
Proof.
  induction n as [|n IH]; intros w; cbn zeta.
  - cbn. done.
  - cbn [poll]. unfold bind, call_GetReplicas.
    destruct (GetReplicas functionName (env w)) as [[r err] s] eqn:Hget.
    cbn.
    destruct err as [e|]; cbn.
    + rewrite lookup_insert_eq. split; [done|]. split; [|done].
      intros k Hk. by rewrite lookup_insert_ne.
    + destruct (0 <? AvailableReplicas r)%N eqn:Hav; cbn.
      * rewrite lookup_insert_eq. split; [done|]. split; [|done].
        intros k Hk. by rewrite lookup_insert_ne.
      * match goal with
        | |- context [poll f functionName start n ?w1] =>
            specialize (IH w1);
            destruct (poll f functionName start n w1) as [[early w2] t2] eqn:Hrest
        end.
        cbn in IH |- *. destruct IH as (HE & Hother & Hname).
        split; [done|]. split.
        -- intros k Hk. rewrite (Hother k Hk). by rewrite lookup_insert_ne.
        -- rewrite Hname. destruct (last_get t2); [done|].
           by rewrite lookup_insert_eq.
Qed.

(** The same for [Scale], when its first query succeeds. *)
Lemma Scale_cache f functionName w r0 s0 :
  GetReplicas functionName (env w) = (r0, None, s0) ->
  let run := Scale f functionName w in
  (forall k, k <> functionName ->
     Cache (cell (world_of run)) !! k = Cache (cell w) !! k) /\
  Observation <$> (Cache (cell (world_of run)) !! functionName) =
    last_get (trace_of run).
Proof.
  intros Hget. cbn zeta.
  unfold Scale, bind, call_GetReplicas, time_Now. cbn. rewrite Hget. cbn.
  destruct (AvailableReplicas r0 =? 0)%N eqn:Hzero; cbn.
  - unfold call_SetReplicas. cbn.
    destruct (SetReplicas functionName _ s0) as [setScaleErr s1] eqn:Hset.
    destruct setScaleErr as [e|]; cbn.
    + rewrite lookup_insert_eq. split; [|done].
      intros k Hk. by rewrite lookup_insert_ne.
    + match goal with
      | |- context [poll f functionName ?st ?n ?w1] =>
          pose proof (poll_cache f functionName st n w1) as Hpoll;
          destruct (poll f functionName st n w1) as [[early w2] t2] eqn:Hrest
      end.
      cbn in Hpoll. destruct Hpoll as (HE & Hother & Hname).
      assert (Hgoal :
        (forall k, k <> functionName -> Cache (cell w2) !! k = Cache (cell w) !! k) /\
        Observation <$> (Cache (cell w2) !! functionName) =
          match last_get t2 with Some r' => Some r' | None => Some r0 end).
      { split.
        - intros k Hk. rewrite (Hother k Hk). by rewrite lookup_insert_ne.
        - rewrite Hname. destruct (last_get t2); [done|].
          by rewrite lookup_insert_eq. }
      destruct early as [res|]; cbn; rewrite app_nil_r; exact Hgoal.
  - rewrite lookup_insert_eq. split; [|done].
    intros k Hk. by rewrite lookup_insert_ne.
Qed.

End CacheProperties.

(** ** Properties of [Scale] and of the handler *)

Section Claims.

Context {S : Type} `{!ServiceQuery S} `{!Clock S}.
Implicit Types (f : FunctionScaler) (w : World S).

Lemma Scale_run f functionName w :
  scale_run functionName (FunctionPollInterval (Config f)) (pollCount f)
    (fst (GetReplicas functionName (env w)))
    (result_of (Scale f functionName w)) (trace_of (Scale f functionName w)).
Proof.
  destruct (Scale f functionName w) as [[res w'] tr] eqn:Hrun.
  by apply Scale_sound in Hrun.
Qed.

(** The handler, once the result of [Scale] is known to be of one of its
    three shapes. *)
Lemma scalingHandler_run getServiceName next f r w :
  let functionName := getServiceName (URL r) in
  let run := Scale f functionName w in
  let handled := scalingHandler getServiceName next f r w in
  (exists e,
     Found (result_of run) = false /\ Error (result_of run) = Some e /\
     let errStr := "error finding function " +:+ functionName +:+ ": " +:+ error_text e in
     handled = (Returned, world_of run,
                trace_of run ++ [EvLog (LogScaling errStr);
                                 EvWriteHeader StatusNotFound;
                                 EvWrite errStr])) \/
  (exists e,
     Found (result_of run) = true /\ Error (result_of run) = Some e /\
     let errStr := "error finding function " +:+ functionName +:+ ": " +:+ error_text e in
     handled = (Returned, world_of run,
                trace_of run ++ [EvLog (LogScaling errStr);
                                 EvWriteHeader StatusInternalServerError;
                                 EvWrite errStr])) \/
  (Found (result_of run) = true /\ Error (result_of run) = None /\
   Available (result_of run) = true /\
   handled = (Returned,
              mkWorld (next r (env (world_of run))) (cell (world_of run)),
              trace_of run ++ [EvNext r])).
Proof.
  cbn zeta.
  pose proof (scale_run_result _ _ _ _ _ _
                (Scale_run f (getServiceName (URL r)) w)) as Hshape.
  unfold scalingHandler, bind.
  destruct (Scale f (getServiceName (URL r)) w) as [[res w1] t1].
  unfold result_of, world_of, trace_of in *. cbn in *.
  destruct res as [available err found d]. cbn in *.
  destruct Hshape as [(-> & -> & e & _ & ->)
                     |[(-> & -> & Herr & _)|(-> & -> & -> & _)]]; cbn.
  - left. exists e. done.
  - right; left. destruct err as [e|]; [|done]. exists e. done.
  - right; right. done.
Qed.

(** C1, what the code does.  When the first query succeeds and sees no
    replica, [SetReplicas] succeeds, and the rest of the run is made of
    polling rounds that each succeed, see no replica and go to sleep, then
    the loop has used its whole budget and control reaches the final
    [return] of [Scale]: the result is Available=true, Found=true, Error=nil
    (and not Available=false). *)
Theorem Scale_poll_budget_exhausted f functionName w r0 rs :
  trace_of (Scale f functionName w) =
    scale_up_prefix functionName r0 None
    ++ flat_map (zero_round functionName (FunctionPollInterval (Config f))) rs ->
  let res := result_of (Scale f functionName w) in
  AvailableReplicas r0 = 0%N /\
  Forall (fun r => AvailableReplicas r = 0%N) rs /\
  length rs = pollCount f /\
  Available res = true /\ Found res = true /\ Error res = None.
Proof.
  intros Htr. cbn zeta.
  pose proof (Scale_run f functionName w) as Hrun.
  rewrite Htr in Hrun.
  remember (result_of (Scale f functionName w)) as res eqn:Hres.
  clear Hres Htr.
  inversion Hrun as [r0' e d|r0' d Hup|r0' e d Hzero|r0' res' tr Hzero Hpoll|r0' tr d Hzero Hpoll];
    subst.
  - apply poll_run_rounds in Hpoll as ([=] & _).
  - apply poll_run_rounds in Hpoll as (_ & Hlen & Hall). done.
Qed.

(** [MakeScalingHandler] returns the closure over a scaler built from the
    configuration, with an empty cache. *)
Lemma MakeScalingHandler_closure getServiceName next config :
  MakeScalingHandler getServiceName next config =
    (scalingHandler getServiceName next {| Config := config |},
     {| Cache := ∅; Expiry := CacheExpiry config |}).
Proof. reflexivity. Qed.

(** C3.  A result of [Scale] without an error is always available and
    found: [Scale] never returns Available=false, Found=true, Error=nil.
    Hence the handler never reaches its last branch, the one that only logs
    a time-out: it always ends by writing a response body or by calling the
    downstream handler. *)
Theorem Scale_no_error_is_available f functionName w :
  let res := result_of (Scale f functionName w) in
  (Error res = None -> Available res = true /\ Found res = true) /\
  ~ (Available res = false /\ Found res = true /\ Error res = None) /\
  forall getServiceName next r,
    let handled := scalingHandler getServiceName next f r w in
    result_of handled = Returned /\
    (forall fn d, ~ In (EvLog (LogTimedOut fn d)) (trace_of handled)) /\
    exists tr last, trace_of handled = tr ++ [last] /\
      (last = EvNext r \/ exists body, last = EvWrite body).
Proof.
  cbn zeta.
  pose proof (scale_run_result _ _ _ _ _ _ (Scale_run f functionName w)) as Hshape.
  split; [|split].
  - intros Hnil.
    destruct Hshape as [(_ & _ & e & _ & He)|[(_ & _ & He & _)|(HF & HA & _)]];
      [congruence | congruence | done].
  - intros (HA & HF & HE).
    destruct Hshape as [(HF' & _)|[(_ & _ & He & _)|(_ & HA' & _)]]; congruence.
  - intros getServiceName next r.
    pose proof (scale_run_events _ _ _ _ _ _
                  (Scale_run f (getServiceName (URL r)) w)) as Hevents.
    assert (Hquiet : forall fn d,
      ~ In (EvLog (LogTimedOut fn d))
           (trace_of (Scale f (getServiceName (URL r)) w))).
    { intros fn d Hin. rewrite Forall_forall in Hevents.
      apply list_elem_of_In in Hin. by apply Hevents in Hin. }
    destruct (scalingHandler_run getServiceName next f r w)
      as [(e & _ & _ & ->)|[(e & _ & _ & ->)|(_ & _ & _ & ->)]];
      unfold result_of, trace_of in *; cbn [fst snd].
    + split; [done|]. split.
      * intros fn d Hin. apply in_app_or in Hin as [Hin|Hin].
        -- by apply (Hquiet fn d).
        -- cbn in Hin. destruct Hin as [[=]|[[=]|[[=]|[]]]].
      * eexists (_ ++ [_; _]), _. split.
        -- rewrite <- app_assoc. reflexivity.
        -- right. by eexists.
    + split; [done|]. split.
      * intros fn d Hin. apply in_app_or in Hin as [Hin|Hin].
        -- by apply (Hquiet fn d).
        -- cbn in Hin. destruct Hin as [[=]|[[=]|[[=]|[]]]].
      * eexists (_ ++ [_; _]), _. split.
        -- rewrite <- app_assoc. reflexivity.
        -- right. by eexists.
    + split; [done|]. split.
      * intros fn d Hin. apply in_app_or in Hin as [Hin|Hin].
        -- by apply (Hquiet fn d).
        -- cbn in Hin. destruct Hin as [[=]|[]].
      * eexists _, _. split; [reflexivity|]. by left.
Qed.

(** C4.  When the first query succeeds and reports a replica, [Scale]
    returns Available=true, Found=true, Error=nil; the whole run is that
    one query and the cache write: no [SetReplicas] call, no polling. *)
Theorem Scale_available_at_first_query f functionName w r0 s0 :
  GetReplicas functionName (env w) = (r0, None, s0) ->
  (0 < AvailableReplicas r0)%N ->
  Scale f functionName w =
    ({| Available := true; Error := None; Found := true;
        Duration := saturate (Now s0 - Now (env w)) |},
     mkWorld s0 (FunctionCache_Set functionName r0 (Now s0) (cell w)),
     [EvGetReplicas functionName r0 None; EvCacheSet functionName r0]) /\
  (forall e, In e (trace_of (Scale f functionName w)) -> is_set e = false) /\
  length (filter (fun e => is_get e = true) (trace_of (Scale f functionName w))) = 1.
Proof.
  intros Hget Hup.
  assert (Hrun : Scale f functionName w =
    ({| Available := true; Error := None; Found := true;
        Duration := saturate (Now s0 - Now (env w)) |},
     mkWorld s0 (FunctionCache_Set functionName r0 (Now s0) (cell w)),
     [EvGetReplicas functionName r0 None; EvCacheSet functionName r0])).
  { unfold Scale, bind, call_GetReplicas, time_Now. cbn. rewrite Hget. cbn.
    replace (AvailableReplicas r0 =? 0)%N with false
      by (symmetry; apply N.eqb_neq; lia).
    reflexivity. }
  rewrite Hrun. split; [done|]. unfold trace_of; cbn. split; [|done].
  intros e [<-|[<-|[]]]; done.
Qed.

(** C5.  When the first query fails, [Scale] returns Found=false,
    Available=false and that very error; and a result with Found=false
    comes from a failed first query only. *)
Theorem Scale_not_found_iff_first_query_fails f functionName w :
  let first := fst (GetReplicas functionName (env w)) in
  let res := result_of (Scale f functionName w) in
  (forall e, snd first = Some e ->
     Found res = false /\ Available res = false /\ Error res = Some e) /\
  (Found res = false -> exists e, snd first = Some e).
Proof.
  cbn zeta.
  pose proof (scale_run_result _ _ _ _ _ _ (Scale_run f functionName w)) as Hshape.
  split.
  - intros e He.
    destruct Hshape as [(HF & HA & e' & He' & HE)|[(_ & _ & _ & Hn)|(_ & _ & _ & Hn)]];
      [|congruence..].
    rewrite He in He'. injection He' as <-. done.
  - intros HF.
    destruct Hshape as [(_ & _ & e' & He' & _)|[(HF' & _)|(HF' & _)]];
      [by exists e'|congruence..].
Qed.

(** C6.  When a query of the polling loop (any query after the first
    event of the run) fails, [Scale] returns Found=true, Available=false and
    that very error, and nothing follows the failed query but the cache
    write of the value it returned: no further query is made. *)
Theorem Scale_poll_query_failure f functionName w t1 fn r e t2 :
  trace_of (Scale f functionName w) = t1 ++ EvGetReplicas fn r (Some e) :: t2 ->
  t1 <> [] ->
  let res := result_of (Scale f functionName w) in
  Found res = true /\ Available res = false /\ Error res = Some e /\
  t2 = [EvCacheSet functionName r] /\
  Forall (fun ev => is_get ev = false) t2.
Proof.
  intros Htr Hne. cbn zeta.
  destruct (scale_run_get _ _ _ _ _ _ (Scale_run f functionName w) _ _ _ _ _ Htr)
    as (-> & [(-> & _)|(t3 & -> & _ & Hfail)]); [done|].
  destruct (Hfail Hne e eq_refl) as (-> & HF & HA & HE).
  repeat split; try done. by repeat constructor.
Qed.

(** C7.  A [SetReplicas] call of a run of [Scale] is made for the function
    being scaled, after a first query that succeeded and saw no replica; it
    asks for the MinReplicas of that observation when it is positive, and
    for 1 when it is 0. *)
Theorem Scale_set_request f functionName w fn k err :
  In (EvSetReplicas fn k err) (trace_of (Scale f functionName w)) ->
  let first := fst (GetReplicas functionName (env w)) in
  snd first = None /\
  AvailableReplicas (fst first) = 0%N /\
  fn = functionName /\
  ((0 < MinReplicas (fst first))%N -> k = MinReplicas (fst first)) /\
  (MinReplicas (fst first) = 0%N -> k = 1%N).
Proof.
  intros Hin. cbn zeta.
  destruct (scale_run_set _ _ _ _ _ _ _ _ _ (Scale_run f functionName w) Hin)
    as (Hok & Hzero & -> & ->).
  repeat split; try done; unfold requestedReplicas; intros Hmin.
  - by replace (0 <? MinReplicas _)%N with true by (symmetry; apply N.ltb_lt; lia).
  - by rewrite Hmin.
Qed.

(** C8.  When the result of [Scale] has Found=false, the handler returns
    after logging, writing the status 404 and writing a body made of a
    fixed prefix, the function name, a separator and the text of the
    error; the downstream handler is not called. *)
Theorem scalingHandler_not_found getServiceName next f r w :
  let functionName := getServiceName (URL r) in
  let run := Scale f functionName w in
  let handled := scalingHandler getServiceName next f r w in
  Found (result_of run) = false ->
  exists e, Error (result_of run) = Some e /\
    let body := "error finding function " +:+ functionName +:+ ": " +:+ error_text e in
    handled = (Returned, world_of run,
               trace_of run ++ [EvLog (LogScaling body);
                                EvWriteHeader 404;
                                EvWrite body]) /\
    (forall r', ~ In (EvNext r') (trace_of handled)).
Proof.
  cbn zeta. intros HF.
  pose proof (scale_run_events _ _ _ _ _ _
                (Scale_run f (getServiceName (URL r)) w)) as Hevents.
  destruct (scalingHandler_run getServiceName next f r w)
    as [(e & _ & HE & Hrun)|[(e & HF' & _)|(HF' & _)]]; [|congruence..].
  exists e. split; [done|]. cbn zeta in Hrun. rewrite Hrun. split; [done|].
  intros r' Hin. unfold trace_of in Hin; cbn [snd] in Hin.
  apply in_app_or in Hin as [Hin|Hin].
  - rewrite Forall_forall in Hevents. apply list_elem_of_In in Hin.
    by apply Hevents in Hin.
  - cbn in Hin. destruct Hin as [[=]|[[=]|[[=]|[]]]].
Qed.

(** C9, as the code has it.  Every query of a run of [Scale] is made for
    the function being scaled and, unless it is a failed first query (which
    ends the run and leaves the cache alone), is followed at once by a
    cache write for that function of the value the query returned, whether
    the query succeeded or failed.  After a run whose first query succeeded
    the cache entry of the function holds the value returned by the last
    query, and no other entry has changed. *)
Theorem Scale_cache_writes f functionName w :
  let first := fst (GetReplicas functionName (env w)) in
  let run := Scale f functionName w in
  (forall t1 fn r err t2,
     trace_of run = t1 ++ EvGetReplicas fn r err :: t2 ->
     fn = functionName /\
     ((t1 = [] /\ err <> None /\ t2 = []) \/
      (exists t3, t2 = EvCacheSet functionName r :: t3))) /\
  (snd first = None ->
     Observation <$> (Cache (cell (world_of run)) !! functionName) =
       last_get (trace_of run) /\
     forall k, k <> functionName ->
       Cache (cell (world_of run)) !! k = Cache (cell w) !! k) /\
  (snd first <> None -> cell (world_of run) = cell w).
Proof.
  cbn zeta. split; [|split].
  - intros t1 fn r err t2 Htr.
    destruct (scale_run_get _ _ _ _ _ _ (Scale_run f functionName w) _ _ _ _ _ Htr)
      as (-> & [(-> & _ & Herr & ->)|(t3 & -> & _)]).
    + split; [done|]. by left.
    + split; [done|]. right. by exists t3.
  - intros Hok.
    destruct (GetReplicas functionName (env w)) as [[r0 err0] s0] eqn:Hget.
    cbn in Hok. subst err0.
    destruct (Scale_cache f functionName w r0 s0 Hget) as (Hother & Hname).
    done.
  - intros Hfail. unfold Scale, bind, call_GetReplicas, time_Now. cbn.
    destruct (GetReplicas functionName (env w)) as [[r0 err0] s0] eqn:Hget.
    cbn in Hfail |- *. destruct err0 as [e|]; [done|congruence].
Qed.

(** C10.  A result of [Scale] with Found=false carries an error, so the
    handler's [res.Error.Error()] in the not-found branch is never a nil
    dereference: the handler always returns. *)
Theorem Scale_not_found_has_error f w :
  (forall functionName,
     Found (result_of (Scale f functionName w)) = false ->
     Error (result_of (Scale f functionName w)) <> None) /\
  (forall getServiceName next r,
     result_of (scalingHandler getServiceName next f r w) = Returned).
Proof.
  split.
  - intros functionName HF.
    destruct (scale_run_result _ _ _ _ _ _ (Scale_run f functionName w))
      as [(_ & _ & e & _ & He)|[(HF' & _)|(HF' & _)]]; congruence.
  - intros getServiceName next r.
    destruct (scalingHandler_run getServiceName next f r w)
      as [(e & _ & _ & ->)|[(e & _ & _ & ->)|(_ & _ & _ & ->)]]; done.
Qed.

(** C2, what the code does.  When the first query succeeds with no replica
    and the [SetReplicas] call fails with any error [e], [Scale] returns
    Found=true, Available=false and an error whose text is built from the
    nil error of the first query: it is the same text whatever [e] is. *)
Theorem Scale_set_failure f functionName w r0 s0 e s1 :
  GetReplicas functionName (env w) = (r0, None, s0) ->
  AvailableReplicas r0 = 0%N ->
  SetReplicas functionName (requestedReplicas r0) s0 = (Some e, s1) ->
  Scale f functionName w =
    ({| Available := false;
        Error := Some (errorString ("unable to scale function [" +:+ functionName
                                    +:+ "], err: %!s(<nil>)"));
        Found := true;
        Duration := saturate (Now s1 - Now (env w)) |},
     mkWorld s1 (FunctionCache_Set functionName r0 (Now s0) (cell w)),
     scale_up_prefix functionName r0 (Some e)).
Proof.
  intros Hget Hzero Hset.
  unfold Scale, bind, call_GetReplicas, call_SetReplicas, time_Now. cbn.
  rewrite Hget. cbn. rewrite Hzero. cbn.
  fold (requestedReplicas r0). rewrite Hset. reflexivity.
Qed.

End Claims.

(** ** Runs on the scripted environment *)

Import Scripted.

Lemma Scale_poll_budget_exhausted_witness :
  pollCount (scaler 2) = 2 /\
  trace_of (Scale (scaler 2) "fn" world_timeout) =
    scale_up_prefix "fn" zeroResponse None
    ++ flat_map (zero_round "fn" 10000000) [zeroResponse; zeroResponse] /\
  Available (result_of (Scale (scaler 2) "fn" world_timeout)) = true /\
  Found (result_of (Scale (scaler 2) "fn" world_timeout)) = true /\
  Error (result_of (Scale (scaler 2) "fn" world_timeout)) = None.
Proof.
  assert (Htr : trace_of (Scale (scaler 2) "fn" world_timeout) =
    scale_up_prefix "fn" zeroResponse None
    ++ flat_map (zero_round "fn" (FunctionPollInterval (Config (scaler 2))))
         [zeroResponse; zeroResponse]) by reflexivity.
  destruct (Scale_poll_budget_exhausted (scaler 2) "fn" world_timeout
              zeroResponse [zeroResponse; zeroResponse] Htr)
    as (_ & _ & Hlen & HA & HF & HE).
  split; [by rewrite <- Hlen|].
  split; [exact Htr|].
  split; [exact HA|]. split; [exact HF|exact HE].
Defined.

Lemma Scale_set_failure_witness :
  AvailableReplicas zeroResponse = 0%N /\
  result_of (Scale (scaler 3) "fn" world_set_fails) =
    {| Available := false;
       Error := Some (errorString "unable to scale function [fn], err: %!s(<nil>)");
       Found := true;
       Duration := 0 |}.
Proof.
  split; [reflexivity|].
  rewrite (Scale_set_failure (scaler 3) "fn" world_set_fails zeroResponse
             (mkScript [] [Some (errorString "boom")] 0) (errorString "boom")
             (mkScript [] [] 0));
    reflexivity.
Defined.

Lemma Scale_no_error_is_available_witness :
  Error (result_of (Scale (scaler 2) "fn" world_timeout)) = None /\
  Available (result_of (Scale (scaler 2) "fn" world_timeout)) = true /\
  Found (result_of (Scale (scaler 2) "fn" world_timeout)) = true.
Proof.
  split; [reflexivity|].
  apply (proj1 (Scale_no_error_is_available (scaler 2) "fn" world_timeout)).
  reflexivity.
Defined.

Lemma Scale_available_at_first_query_witness :
  (0 < AvailableReplicas (fst (up 2)))%N /\
  trace_of (Scale (scaler 3) "fn" world_up) =
    [EvGetReplicas "fn" (fst (up 2)) None; EvCacheSet "fn" (fst (up 2))] /\
  length (filter (fun e => is_get e = true)
            (trace_of (Scale (scaler 3) "fn" world_up))) = 1.
Proof.
  assert (Hup : (0 < AvailableReplicas (fst (up 2)))%N) by reflexivity.
  split; [exact Hup|].
  assert (Hget : GetReplicas "fn" (env world_up)
                 = (fst (up 2), None, mkScript [] [] 0)) by reflexivity.
  destruct (Scale_available_at_first_query (scaler 3) "fn" world_up
              (fst (up 2)) (mkScript [] [] 0) Hget Hup) as (Hrun & _ & Hone).
  split; [by rewrite Hrun | exact Hone].
Defined.

Lemma Scale_not_found_iff_first_query_fails_witness :
  snd (fst (GetReplicas "fn" (env world_unknown))) = Some (errorString "nope") /\
  Found (result_of (Scale (scaler 3) "fn" world_unknown)) = false /\
  Available (result_of (Scale (scaler 3) "fn" world_unknown)) = false /\
  Error (result_of (Scale (scaler 3) "fn" world_unknown)) = Some (errorString "nope").
Proof.
  split; [reflexivity|].
  apply (proj1 (Scale_not_found_iff_first_query_fails (scaler 3) "fn" world_unknown)).
  reflexivity.
Defined.

Lemma Scale_poll_query_failure_witness :
  Found (result_of (Scale (scaler 3) "fn" world_poll_fails)) = true /\
  Available (result_of (Scale (scaler 3) "fn" world_poll_fails)) = false /\
  Error (result_of (Scale (scaler 3) "fn" world_poll_fails)) = Some (errorString "down").
Proof.
  destruct (Scale_poll_query_failure (scaler 3) "fn" world_poll_fails
              (scale_up_prefix "fn" zeroResponse None
               ++ zero_round "fn" 10000000 zeroResponse)
              "fn" (fst (broken 3 "down")) (errorString "down")
              [EvCacheSet "fn" (fst (broken 3 "down"))])
    as (HF & HA & HE & _).
  - reflexivity.
  - discriminate.
  - repeat split; assumption.
Defined.

Lemma Scale_set_request_witness :
  In (EvSetReplicas "fn" 4 None) (trace_of (Scale (scaler 3) "fn" world_min)) /\
  MinReplicas (fst (fst (GetReplicas "fn" (env world_min)))) = 4%N.
Proof.
  assert (Hin : In (EvSetReplicas "fn" 4 None)
                  (trace_of (Scale (scaler 3) "fn" world_min))).
  { vm_compute. right; right; right; left. reflexivity. }
  split; [exact Hin|].
  destruct (Scale_set_request (scaler 3) "fn" world_min "fn" 4 None Hin)
    as (_ & _ & _ & Hmin & _).
  symmetry. apply Hmin. reflexivity.
Defined.

Lemma scalingHandler_not_found_witness :
  Found (result_of (Scale (scaler 3) "fn" world_unknown)) = false /\
  exists e,
    trace_of (scalingHandler (fun url => url) (fun _ s => s) (scaler 3)
                (mkRequest "fn") world_unknown) =
      trace_of (Scale (scaler 3) "fn" world_unknown)
      ++ [EvLog (LogScaling ("error finding function fn: " +:+ error_text e));
          EvWriteHeader 404;
          EvWrite ("error finding function fn: " +:+ error_text e)].
Proof.
  split; [reflexivity|].
  assert (HF : Found (result_of (Scale (scaler 3) "fn" world_unknown)) = false)
    by reflexivity.
  destruct (scalingHandler_not_found (fun url => url) (fun _ s => s) (scaler 3)
              (mkRequest "fn") world_unknown HF) as (e & _ & Hrun & _).
  exists e. cbn zeta in Hrun. rewrite Hrun. reflexivity.
Defined.

(** C9 as stated fails: a polling query may fail and still return a value
    that is not the zero value; it is that value which is written to the
    cache, and which the cache holds after the run. *)
Lemma Scale_failed_poll_stores_returned_value :
  ~ failed_poll_stores_zero "fn" (trace_of (Scale (scaler 3) "fn" world_poll_fails)) /\
  Observation <$> (Cache (cell (world_of (Scale (scaler 3) "fn" world_poll_fails))) !! "fn")
    = Some {| AvailableReplicas := 3; MinReplicas := 0 |}.
Proof.
  split; [|by vm_compute].
  intros Hzero.
  destruct (Hzero (scale_up_prefix "fn" zeroResponse None
                   ++ zero_round "fn" 10000000 zeroResponse)
              "fn" (fst (broken 3 "down")) (errorString "down")
              [EvCacheSet "fn" (fst (broken 3 "down"))])
    as (t3 & Heq).
  - reflexivity.
  - discriminate.
  - discriminate Heq.
Qed.

Lemma Scale_cache_writes_witness :
  snd (fst (GetReplicas "fn" (env world_poll_fails))) = None /\
  Observation <$> (Cache (cell (world_of (Scale (scaler 3) "fn" world_poll_fails))) !! "fn")
    = last_get (trace_of (Scale (scaler 3) "fn" world_poll_fails)).
Proof.
  split; [reflexivity|].
  apply (proj1 (proj2 (Scale_cache_writes (scaler 3) "fn" world_poll_fails))).
  reflexivity.
Defined.

Lemma Scale_not_found_has_error_witness :
  Found (result_of (Scale (scaler 3) "fn" world_unknown)) = false /\
  Error (result_of (Scale (scaler 3) "fn" world_unknown)) <> None.
Proof.
  split; [reflexivity|].
  apply (proj1 (Scale_not_found_has_error (scaler 3) world_unknown) "fn").
  reflexivity.
Defined.

(** ** Further properties of runs *)

Lemma count_if_app p (t1 t2 : list Event) :
  count_if p (t1 ++ t2) = count_if p t1 + count_if p t2.
Proof. induction t1 as [|e t1 IH]; cbn; [done|]. rewrite IH. lia. Qed.

Lemma count_if_none p (tr : list Event) :
  Forall (fun e => p e = false) tr -> count_if p tr = 0.
Proof. induction 1 as [|e tr He _ IH]; cbn; [done|]. by rewrite He, IH. Qed.

Section MoreTraceProperties.

Variables (functionName : string) (interval : Z).

(** The loop makes at most [n] queries, one cache write for each, at most
    as many sleeps, and no [SetReplicas] call. *)
Lemma poll_run_counts n early tr :
  poll_run functionName interval n early tr ->
  count_if is_get tr <= n /\
  count_if is_cache_set tr = count_if is_get tr /\
  count_if is_sleep tr <= count_if is_get tr /\
  count_if is_set tr = 0.
Proof.
  induction 1 as [|n r e d|n r d Hup|n r early tr Hzero Hrun IH]; cbn;
    [lia..|].
  destruct IH as (Hg & Hc & Hs & Hset). lia.
Qed.

Lemma scale_run_counts n first res tr :
  scale_run functionName interval n first res tr ->
  count_if is_get tr <= Datatypes.S n /\
  count_if is_cache_set tr <= count_if is_get tr /\
  count_if is_sleep tr <= n /\
  count_if is_set tr <= 1.
Proof.
  destruct 1 as [r0 e d|r0 d Hup|r0 e d Hzero|r0 res tr Hzero Hpoll|r0 tr d Hzero Hpoll];
    cbn; try lia;
    destruct (poll_run_counts _ _ _ Hpoll) as (Hg & Hc & Hs & Hset); lia.
Qed.

(** A result comes without an error exactly when no call failed. *)
Lemma poll_run_failed_call n early tr :
  poll_run functionName interval n early tr ->
  match early with
  | Some res => Error res = None <-> no_failed_call tr = true
  | None => no_failed_call tr = true
  end.
Proof.
  induction 1 as [|n r e d|n r d Hup|n r early tr Hzero Hrun IH]; cbn;
    [done|done|done|exact IH].
Qed.

Lemma scale_run_failed_call n first res tr :
  scale_run functionName interval n first res tr ->
  Error res = None <-> no_failed_call tr = true.
Proof.
  destruct 1 as [r0 e d|r0 d Hup|r0 e d Hzero|r0 res tr Hzero Hpoll|r0 tr d Hzero Hpoll];
    cbn; try done.
  - exact (poll_run_failed_call _ _ _ Hpoll).
  - split; [intros _|done]. exact (poll_run_failed_call _ _ _ Hpoll).
Qed.

Lemma poll_run_about n early tr :
  poll_run functionName interval n early tr ->
  Forall (about functionName) tr.
Proof.
  induction 1; unfold zero_round;
    repeat (constructor;
            [first [left; reflexivity | right; reflexivity]|]);
    first [assumption | constructor].
Qed.

Lemma scale_run_about n first res tr :
  scale_run functionName interval n first res tr ->
  Forall (about functionName) tr.
Proof.
  destruct 1 as [r0 e d|r0 d Hup|r0 e d Hzero|r0 res tr Hzero Hpoll|r0 tr d Hzero Hpoll];
    unfold scale_up_prefix; cbn;
    repeat (constructor;
            [first [left; reflexivity | right; reflexivity]|]);
    first [apply (poll_run_about _ _ _ Hpoll) | constructor].
Qed.



(** A query of the loop that succeeds and sees a replica ends the loop with
    the success result, after its cache write and a log line. *)
Lemma poll_run_get_up n early tr :
  poll_run functionName interval n early tr ->
  forall t1 fn r t2,
    tr = t1 ++ EvGetReplicas fn r None :: t2 ->
    (0 < AvailableReplicas r)%N ->
    exists d,
      early = Some {| Error := None; Available := true; Found := true;
                      Duration := d |} /\
      t2 = [EvCacheSet functionName r;
            EvLog (LogSuccessful functionName (AvailableReplicas r) d)].
Proof.
  induction 1 as [|n r e d|n r d Hup|n r early tr Hzero Hrun IH];
    intros t1 fn r' t2 Heq Hpos.
  - peel_trace.
  - peel_trace.
  - peel_trace. by exists d.
  - unfold zero_round in Heq. cbn in Heq.
    apply cons_eq_app_cons in Heq.
    destruct Heq as [(-> & Hx & Ht) | (t1' & -> & Heq)].
    + injection Hx as _ <-. lia.
    + apply cons_eq_app_cons in Heq.
      destruct Heq as [(-> & Hx & Ht) | (t1'' & -> & Heq)]; [discriminate Hx|].
      apply cons_eq_app_cons in Heq.
      destruct Heq as [(-> & Hx & Ht) | (t1''' & -> & Heq)]; [discriminate Hx|].
      by apply (IH _ _ _ _ Heq).
Qed.

Lemma scale_run_get_up n first res tr :
  scale_run functionName interval n first res tr ->
  forall t1 fn r t2,
    tr = t1 ++ EvGetReplicas fn r None :: t2 ->
    t1 <> [] ->
    (0 < AvailableReplicas r)%N ->
    Available res = true /\ Found res = true /\ Error res = None /\
    t2 = [EvCacheSet functionName r;
          EvLog (LogSuccessful functionName (AvailableReplicas r) (Duration res))].
Proof.
  destruct 1 as [r0 e d|r0 d Hup|r0 e d Hzero|r0 res tr Hzero Hpoll|r0 tr d Hzero Hpoll];
    intros t1 fn r t2 Heq Hne Hpos; unfold scale_up_prefix in Heq; cbn in Heq.
  - peel_trace.
  - peel_trace. done.
  - peel_trace. done.
  - apply cons_eq_app_cons in Heq.
    destruct Heq as [(-> & Hx & Ht) | (? & -> & Heq)]; [done|].
    do 3 (apply cons_eq_app_cons in Heq;
          destruct Heq as [(-> & Hx & Ht) | (? & -> & Heq)]; [discriminate Hx|]).
    destruct (poll_run_get_up _ _ _ Hpoll _ _ _ _ Heq Hpos) as (d & [= ->] & ->).
    done.
  - apply cons_eq_app_cons in Heq.
    destruct Heq as [(-> & Hx & Ht) | (? & -> & Heq)]; [done|].
    do 3 (apply cons_eq_app_cons in Heq;
          destruct Heq as [(-> & Hx & Ht) | (? & -> & Heq)]; [discriminate Hx|]).
    by destruct (poll_run_get_up _ _ _ Hpoll _ _ _ _ Heq Hpos) as (d' & [=] & _).
Qed.

End MoreTraceProperties.


Section MoreProperties.

Context {S : Type} `{!ServiceQuery S} `{!Clock S}.
Implicit Types (f : FunctionScaler) (w : World S).


(** X1.  When the result of [Scale] has Found=true and an error, the
    handler returns after logging, writing the status 500 and writing a body
    made of a fixed prefix, the function name, a separator and the text of
    the error; the downstream handler is not called and the world is left as
    [Scale] left it. *)
Theorem scalingHandler_internal_error getServiceName next f r w e :
  let functionName := getServiceName (URL r) in
  let run := Scale f functionName w in
  let handled := scalingHandler getServiceName next f r w in
  Found (result_of run) = true ->
  Error (result_of run) = Some e ->
  let body := "error finding function " +:+ functionName +:+ ": " +:+ error_text e in
  handled = (Returned, world_of run,
             trace_of run ++ [EvLog (LogScaling body);
                              EvWriteHeader 500;
                              EvWrite body]) /\
  count_if is_next (trace_of handled) = 0.
Proof.
  cbn zeta. intros HF HE.
  pose proof (scale_run_events _ _ _ _ _ _
                (Scale_run f (getServiceName (URL r)) w)) as Hevents.
  destruct (scalingHandler_run getServiceName next f r w)
    as [(e' & HF' & _)|[(e' & _ & HE' & Hrun)|(_ & HE' & _)]]; [congruence| |congruence].
  assert (e' = e) as -> by congruence.
  cbn zeta in Hrun. rewrite Hrun. split; [done|].
  set (tr0 := trace_of (Scale f (getServiceName (URL r)) w)) in *.
  unfold trace_of; cbn [snd]. rewrite count_if_app. cbn.
  rewrite count_if_none; [done|].
  eapply Forall_impl; [exact Hevents|].
  intros [| | | |[]| | |]; cbn; done.
Qed.

(** X2.  When the result of [Scale] has no error, the handler calls the
    downstream handler once, with the request it was given, after the run of
    [Scale]; it writes no status and no body of its own. *)
Theorem scalingHandler_forwards getServiceName next f r w :
  let functionName := getServiceName (URL r) in
  let run := Scale f functionName w in
  let handled := scalingHandler getServiceName next f r w in
  Error (result_of run) = None ->
  handled = (Returned,
             mkWorld (next r (env (world_of run))) (cell (world_of run)),
             trace_of run ++ [EvNext r]) /\
  count_if is_write_header (trace_of handled) = 0 /\
  count_if is_write (trace_of handled) = 0 /\
  count_if is_next (trace_of handled) = 1.
Proof.
  cbn zeta. intros HE.
  pose proof (scale_run_events _ _ _ _ _ _
                (Scale_run f (getServiceName (URL r)) w)) as Hevents.
  assert (Hnone : forall p,
    (forall ev, scaler_event ev -> p ev = false) ->
    count_if p (trace_of (Scale f (getServiceName (URL r)) w)) = 0).
  { intros p Hp. apply count_if_none.
    eapply Forall_impl; [exact Hevents|]. exact Hp. }
  destruct (scalingHandler_run getServiceName next f r w)
    as [(e' & _ & HE' & _)|[(e' & _ & HE' & _)|(_ & _ & _ & Hrun)]];
    [congruence..|].
  rewrite Hrun. split; [done|].
  set (tr0 := trace_of (Scale f (getServiceName (URL r)) w)) in *.
  unfold trace_of; cbn [snd]. rewrite !count_if_app. cbn.
  rewrite !Hnone; [done|intros [| | | |[]| | |]; cbn; done..].
Qed.


(** X4.  When a query of the polling loop (any query after the first event
    of the run) succeeds and sees a replica, [Scale] returns Available=true,
    Found=true, Error=nil; nothing follows that query but the cache write of
    what it returned and a log line carrying the duration of the result: no
    sleep, no further query. *)
Theorem Scale_poll_success f functionName w t1 fn r t2 :
  trace_of (Scale f functionName w) = t1 ++ EvGetReplicas fn r None :: t2 ->
  t1 <> [] ->
  (0 < AvailableReplicas r)%N ->
  let res := result_of (Scale f functionName w) in
  Available res = true /\ Found res = true /\ Error res = None /\
  t2 = [EvCacheSet functionName r;
        EvLog (LogSuccessful functionName (AvailableReplicas r) (Duration res))].
Proof.
  intros Htr Hne Hpos. cbn zeta.
  exact (scale_run_get_up _ _ _ _ _ _ (Scale_run f functionName w)
           _ _ _ _ Htr Hne Hpos).
Qed.

(** X5.  A run of [Scale] makes at most one query more than the polling
    budget, at most one cache write per query, at most as many sleeps as the
    budget, and at most one [SetReplicas] call. *)
Theorem Scale_call_bounds f functionName w :
  let tr := trace_of (Scale f functionName w) in
  count_if is_get tr <= Datatypes.S (pollCount f) /\
  count_if is_cache_set tr <= count_if is_get tr /\
  count_if is_sleep tr <= pollCount f /\
  count_if is_set tr <= 1.
Proof.
  exact (scale_run_counts _ _ _ _ _ _ (Scale_run f functionName w)).
Qed.

(** X6.  The number of iterations of the polling loop, on a 64-bit target:
    [MaxPollCount] itself below 2^63, and none at all from 2^63 on, where
    [int(MaxPollCount)] is negative. *)
Theorem pollCount_of_MaxPollCount f :
  ((MaxPollCount (Config f) < 2 ^ 63)%N ->
     pollCount f = N.to_nat (MaxPollCount (Config f))) /\
  ((2 ^ 63 <= MaxPollCount (Config f) < 2 ^ 64)%N -> pollCount f = 0).
Proof.
  unfold pollCount, int_of_uint.
  assert (H63 : (2 ^ 63)%N = 9223372036854775808%N) by reflexivity.
  assert (H64 : (2 ^ 64)%N = 18446744073709551616%N) by reflexivity.
  assert (Z63 : (2 ^ 63)%Z = 9223372036854775808%Z) by reflexivity.
  assert (Z64 : (2 ^ 64)%Z = 18446744073709551616%Z) by reflexivity.
  rewrite H63, H64, Z63, Z64. cbn zeta.
  split; intros Hn.
  - rewrite Z.mod_small by lia.
    destruct (Z.ltb_spec (Z.of_N (MaxPollCount (Config f))) 9223372036854775808);
      lia.
  - rewrite Z.mod_small by lia.
    destruct (Z.ltb_spec (Z.of_N (MaxPollCount (Config f))) 9223372036854775808);
      lia.
Qed.

(** X7.  With no iteration to run, [Scale] does not check that the function
    came up: once the first query has seen no replica and [SetReplicas] has
    succeeded it returns Available=true at once, without a query or a sleep. *)
Theorem Scale_without_polling_budget f functionName w r0 s0 s1 :
  pollCount f = 0 ->
  GetReplicas functionName (env w) = (r0, None, s0) ->
  AvailableReplicas r0 = 0%N ->
  SetReplicas functionName (requestedReplicas r0) s0 = (None, s1) ->
  Scale f functionName w =
    ({| Available := true; Error := None; Found := true;
        Duration := saturate (Now s1 - Now (env w)) |},
     mkWorld s1 (FunctionCache_Set functionName r0 (Now s0) (cell w)),
     scale_up_prefix functionName r0 None).
Proof.
  intros Hbudget Hget Hzero Hset.
  unfold Scale, bind, call_GetReplicas, call_SetReplicas, time_Now. cbn.
  rewrite Hget. cbn. rewrite Hzero. cbn.
  fold (requestedReplicas r0). rewrite Hset, Hbudget. reflexivity.
Qed.


(** X9.  [Scale] returns an error exactly when one of its calls to the
    control plane failed, and reports the function available exactly when
    it returns no error. *)
Theorem Scale_error_iff_failed_call f functionName w :
  let run := Scale f functionName w in
  (Error (result_of run) = None <-> no_failed_call (trace_of run) = true) /\
  (Available (result_of run) = true <-> Error (result_of run) = None).
Proof.
  cbn zeta. split.
  - exact (scale_run_failed_call _ _ _ _ _ _ (Scale_run f functionName w)).
  - destruct (scale_run_result _ _ _ _ _ _ (Scale_run f functionName w))
      as [(_ & HA & e & _ & HE)|[(_ & HA & HE & _)|(_ & HA & HE & _)]];
      rewrite HA; split; intros Hx; congruence.
Qed.

(** X10.  When the first query fails, it is the only thing [Scale] does: no
    cache write, no [SetReplicas] call, no query again, and the cache cell is
    the one it was given. *)
Theorem Scale_first_query_failure_run f functionName w r0 e s0 :
  GetReplicas functionName (env w) = (r0, Some e, s0) ->
  Scale f functionName w =
    ({| Available := false; Error := Some e; Found := false;
        Duration := saturate (Now s0 - Now (env w)) |},
     mkWorld s0 (cell w),
     [EvGetReplicas functionName r0 (Some e)]).
Proof.
  intros Hget.
  unfold Scale, bind, call_GetReplicas, time_Now. cbn. by rewrite Hget.
Qed.

(** X11.  When the first query succeeds and sees no replica, [Scale] writes
    the cache, logs the request and calls [SetReplicas] exactly once, for
    the requested count; what follows is the polling loop, and nothing at
    all when the call failed. *)
Theorem Scale_scale_up_request f functionName w r0 s0 err s1 :
  GetReplicas functionName (env w) = (r0, None, s0) ->
  AvailableReplicas r0 = 0%N ->
  SetReplicas functionName (requestedReplicas r0) s0 = (err, s1) ->
  let tr := trace_of (Scale f functionName w) in
  count_if is_set tr = 1 /\
  exists polling,
    tr = scale_up_prefix functionName r0 err ++ polling /\
    Forall poll_event polling /\
    (err <> None -> polling = []).
Proof.
  intros Hget Hzero Hset. cbn zeta.
  assert (Hshape : exists polling,
    trace_of (Scale f functionName w)
      = scale_up_prefix functionName r0 err ++ polling /\
    Forall poll_event polling /\ (err <> None -> polling = [])).
  { unfold Scale, bind, call_GetReplicas, call_SetReplicas, time_Now. cbn.
    rewrite Hget. cbn. rewrite Hzero. cbn.
    fold (requestedReplicas r0). rewrite Hset.
    destruct err as [e|]; cbn.
    - exists []. by repeat split.
    - destruct (poll f functionName _ (pollCount f) _) as [[early w2] t2] eqn:Hpoll.
      apply poll_sound in Hpoll. apply poll_run_events in Hpoll.
      exists t2. split; [|by split].
      destruct early; cbn; by rewrite app_nil_r. }
  destruct Hshape as (polling & Htr & Hpoll & Hfail).
  split; [|by exists polling].
  rewrite Htr, count_if_app. cbn.
  rewrite count_if_none; [done|].
  eapply Forall_impl; [exact Hpoll|].
  intros [| | | |[]| | |]; cbn; done.
Qed.


(** X13.  Every query, cache write, [SetReplicas] call and log line of a run
    of [Scale] names the function it was called for. *)
Theorem Scale_single_function f functionName w :
  Forall (about functionName) (trace_of (Scale f functionName w)).
Proof.
  exact (scale_run_about _ _ _ _ _ _ (Scale_run f functionName w)).
Qed.

End MoreProperties.

(** ** Further runs on the scripted environment *)

Lemma scalingHandler_internal_error_witness :
  Found (result_of (Scale (scaler 3) "fn" world_poll_fails)) = true /\
  Error (result_of (Scale (scaler 3) "fn" world_poll_fails))
    = Some (errorString "down") /\
  trace_of (scalingHandler (fun url => url) (fun _ s => s) (scaler 3)
              (mkRequest "fn") world_poll_fails) =
    trace_of (Scale (scaler 3) "fn" world_poll_fails)
    ++ [EvLog (LogScaling "error finding function fn: down");
        EvWriteHeader 500;
        EvWrite "error finding function fn: down"].
Proof.
  assert (HF : Found (result_of (Scale (scaler 3) "fn" world_poll_fails)) = true)
    by reflexivity.
  assert (HE : Error (result_of (Scale (scaler 3) "fn" world_poll_fails))
               = Some (errorString "down")) by reflexivity.
  split; [exact HF|]. split; [exact HE|].
  destruct (scalingHandler_internal_error (fun url => url) (fun _ s => s)
              (scaler 3) (mkRequest "fn") world_poll_fails (errorString "down")
              HF HE) as (Hrun & _).
  rewrite Hrun. reflexivity.
Defined.

Lemma scalingHandler_forwards_witness :
  Error (result_of (Scale (scaler 3) "fn" world_up)) = None /\
  trace_of (scalingHandler (fun url => url) (fun _ s => s) (scaler 3)
              (mkRequest "fn") world_up) =
    trace_of (Scale (scaler 3) "fn" world_up) ++ [EvNext (mkRequest "fn")].
Proof.
  assert (HE : Error (result_of (Scale (scaler 3) "fn" world_up)) = None)
    by reflexivity.
  split; [exact HE|].
  destruct (scalingHandler_forwards (fun url => url) (fun _ s => s)
              (scaler 3) (mkRequest "fn") world_up HE) as (Hrun & _).
  rewrite Hrun. reflexivity.
Defined.

Lemma Scale_poll_success_witness :
  (0 < AvailableReplicas (fst (up 2)))%N /\
  Available (result_of (Scale (scaler 3) "fn" world_ready)) = true /\
  Found (result_of (Scale (scaler 3) "fn" world_ready)) = true /\
  Error (result_of (Scale (scaler 3) "fn" world_ready)) = None.
Proof.
  assert (Hup : (0 < AvailableReplicas (fst (up 2)))%N) by reflexivity.
  split; [exact Hup|].
  destruct (Scale_poll_success (scaler 3) "fn" world_ready
              (scale_up_prefix "fn" zeroResponse None
               ++ zero_round "fn" 10000000 zeroResponse)
              "fn" (fst (up 2))
              [EvCacheSet "fn" (fst (up 2));
               EvLog (LogSuccessful "fn" 2 10000000)])
    as (HA & HF & HE & _).
  - reflexivity.
  - discriminate.
  - exact Hup.
  - split; [exact HA|]. split; [exact HF|exact HE].
Defined.

Lemma pollCount_of_MaxPollCount_witness :
  (2 ^ 63 <= MaxPollCount (Config (scaler (2 ^ 63))) < 2 ^ 64)%N /\
  pollCount (scaler (2 ^ 63)) = 0.
Proof.
  assert (Hbig : (2 ^ 63 <= MaxPollCount (Config (scaler (2 ^ 63))) < 2 ^ 64)%N).
  { split; [discriminate|reflexivity]. }
  split; [exact Hbig|].
  exact (proj2 (pollCount_of_MaxPollCount (scaler (2 ^ 63))) Hbig).
Defined.

Lemma Scale_without_polling_budget_witness :
  pollCount (scaler 0) = 0 /\
  result_of (Scale (scaler 0) "fn" world_scaled) =
    {| Available := true; Error := None; Found := true; Duration := 0 |} /\
  trace_of (Scale (scaler 0) "fn" world_scaled) =
    scale_up_prefix "fn" zeroResponse None.
Proof.
  assert (Hbudget : pollCount (scaler 0) = 0) by reflexivity.
  assert (Hget : GetReplicas "fn" (env world_scaled)
                 = (zeroResponse, None, mkScript [] [None] 0)) by reflexivity.
  assert (Hset : SetReplicas "fn" (requestedReplicas zeroResponse)
                   (mkScript [] [None] 0)
                 = (None, mkScript [] [] 0)) by reflexivity.
  split; [exact Hbudget|].
  rewrite (Scale_without_polling_budget (scaler 0) "fn" world_scaled
             zeroResponse (mkScript [] [None] 0) (mkScript [] [] 0)
             Hbudget Hget eq_refl Hset).
  split; reflexivity.
Defined.

Lemma Scale_error_iff_failed_call_witness :
  no_failed_call (trace_of (Scale (scaler 3) "fn" world_ready)) = true /\
  Error (result_of (Scale (scaler 3) "fn" world_ready)) = None.
Proof.
  assert (Hok : no_failed_call (trace_of (Scale (scaler 3) "fn" world_ready)) = true)
    by reflexivity.
  split; [exact Hok|].
  exact (proj2 (proj1 (Scale_error_iff_failed_call (scaler 3) "fn" world_ready)) Hok).
Defined.

Lemma Scale_first_query_failure_run_witness :
  trace_of (Scale (scaler 3) "fn" world_unknown) =
    [EvGetReplicas "fn" (fst (broken 0 "nope")) (Some (errorString "nope"))] /\
  cell (world_of (Scale (scaler 3) "fn" world_unknown)) = cell world_unknown.
Proof.
  assert (Hget : GetReplicas "fn" (env world_unknown)
                 = (fst (broken 0 "nope"), Some (errorString "nope"),
                    mkScript [] [] 0)) by reflexivity.
  rewrite (Scale_first_query_failure_run (scaler 3) "fn" world_unknown
             (fst (broken 0 "nope")) (errorString "nope") (mkScript [] [] 0) Hget).
  split; reflexivity.
Defined.

Lemma Scale_scale_up_request_witness :
  AvailableReplicas zeroResponse = 0%N /\
  count_if is_set (trace_of (Scale (scaler 2) "fn" world_timeout)) = 1.
Proof.
  assert (Hget : GetReplicas "fn" (env world_timeout)
                 = (zeroResponse, None, mkScript [zero; zero] [None] 0))
    by reflexivity.
  assert (Hset : SetReplicas "fn" (requestedReplicas zeroResponse)
                   (mkScript [zero; zero] [None] 0)
                 = (None, mkScript [zero; zero] [] 0)) by reflexivity.
  split; [reflexivity|].
  exact (proj1 (Scale_scale_up_request (scaler 2) "fn" world_timeout
                  zeroResponse (mkScript [zero; zero] [None] 0) None
                  (mkScript [zero; zero] [] 0) Hget eq_refl Hset)).
Defined.

